(** * A caching GraphQL gateway in front of a storefront API (src/index.ts)

    The program is a single module.  Loading it reads the process
    environment, creates the response cache, starts ONE schema download,
    builds the envelop plugin list and registers two HTTP routes.  After
    that the process only reacts to events: the schema download settles,
    or an HTTP request arrives.

    The embedding follows that shape: [init] is the module body, [step] is
    one turn of the event loop, [run] folds [step] over a trace of events.
    The libraries the module calls (graphql-helix, the GraphQL engine, the
    upstream endpoint, the contents of the cache) are Variables of the
    Section [Gateway]; every theorem holds for all of them. *)

From Stdlib Require Import ZArith List Permutation Sorted OrderedTypeEx.
From stdpp Require Import base option list strings gmap.
Import ListNotations.

Local Open Scope string_scope.
Local Open Scope list_scope.

(** ** JSON values

    What [res.send] receives and what GraphQL variables are.  An object is
    an association list: the order of the fields is the serialization
    order. *)
#[warnings="-register-all"]
Inductive json : Type :=
  | JNull
  | JBool (b : bool)
  | JNum (z : Z)
  | JStr (s : string)
  | JArr (items : list json)
  | JObj (fields : list (string * json)).

(** ** process.env *)

Abbreviation Env := (gmap string string).

(** A template literal prints a missing variable as the text undefined. *)
Definition interpolate (v : option string) : string :=
  default "undefined" v.

(** [require('dotenv').config()]: the entries of the .env file are added to
    process.env; a variable that is already set keeps its value. *)
Definition dotenv_config (env file : Env) : Env := env ∪ file.

(** ** The upstream schema request *)

Record FetchRequest : Type := mkFetch {
  fetch_url : string;
  fetch_headers : list (string * option string)
}.

(** The argument [getSchema] hands to [loadSchema] (lines 16-23). *)
Definition schema_request (env : Env) : FetchRequest :=
  {| fetch_url :=
       "https://" +:+ interpolate (env !! "SHOPIFY_STORE") +:+ "/api/"
       +:+ interpolate (env !! "STOREFRONT_API_VERSION") +:+ "/graphql.json";
     fetch_headers :=
       [("X-Shopify-Storefront-Access-Token", env !! "STOREFRONT_API_PASSWORD")] |}.

(** ** The cache backend (lines 26-37) *)

Inductive Cache : Type :=
  | InMemoryCache
  | RedisCache (connection : option string).

Definition createCache (devMode : bool) (env : Env) : Cache :=
  if devMode then InMemoryCache
  else RedisCache (env !! "REDIS_CONNECTION_STRING").

(** ** Plugins (lines 39-52) *)

Record ResponseCacheOptions : Type := mkOptions {
  includeExtensionMetadata : bool;
  ignoredTypes : list string;
  cache : Cache
}.

(** A promise is named by its position in the promise heap. *)
Definition PromiseId := nat.

Inductive Plugin : Type :=
  | useAsyncSchema (schemaPromise : PromiseId)
  | useResponseCache (options : ResponseCacheOptions)
  | useLogger.

(** ** Promises

    A promise settles at most once; settling a settled promise changes
    nothing. *)
Inductive Promise (A : Type) : Type :=
  | Pending
  | Fulfilled (value : A)
  | Rejected.
Arguments Pending {A}.
Arguments Fulfilled {A} value.
Arguments Rejected {A}.

Definition settle {A} (outcome : option A) (p : Promise A) : Promise A :=
  match p with
  | Pending => match outcome with Some v => Fulfilled v | None => Rejected end
  | settled => settled
  end.

(** ** HTTP *)

Inductive Method : Type := GET | POST | HEAD | PUT | DELETE | PATCH | OPTIONS.

#[global] Instance Method_eq_dec : EqDecision Method.
Proof. solve_decision. Defined.

(** A request as the framework hands it to a route handler, its body
    parsed: [req_path] is the URL without its query string, [req_query]
    the parsed query string.  A request the framework answers by itself
    (a body it cannot parse, a content type it does not accept) never
    gets this far and is not modelled. *)
Record Request : Type := mkRequest {
  req_method : Method;
  req_path : string;
  req_headers : list (string * string);
  req_query : list (string * string);
  req_body : json
}.

(** The reply object of the framework: status 200 until [res.status] is
    called, nothing sent until [res.send] is called. *)
Record Reply : Type := mkReply {
  reply_status : Z;
  reply_sent : option json
}.

Definition fresh_reply : Reply := {| reply_status := 200; reply_sent := None |}.

Definition res_status (code : Z) (res : Reply) : Reply :=
  {| reply_status := code; reply_sent := reply_sent res |}.

Definition res_send (payload : json) (res : Reply) : Reply :=
  {| reply_status := reply_status res; reply_sent := Some payload |}.

(** What graphql-helix's [processRequest] resolves to.  Only a result of
    type RESPONSE carries a status and a payload. *)
Inductive ProcessRequestResult : Type :=
  | Response (status : Z) (headers : list (string * string)) (payload : json)
  | MultipartResponse
  | Push.

Definition result_type (r : ProcessRequestResult) : string :=
  match r with
  | Response _ _ _ => "RESPONSE"
  | MultipartResponse => "MULTIPART_RESPONSE"
  | Push => "PUSH"
  end.

(** The payload of line 100. *)
Definition not_supported : json :=
  JObj [("errors", JArr [JObj [("message", JStr "Not Supported in this demo")]])].

(** Lines 94-101: what the handler does with the result. *)
Definition respond (result : ProcessRequestResult) (res : Reply) : Reply :=
  match result with
  | Response status _ payload => res_send payload (res_status status res)
  | _ => res_send not_supported res
  end.

(** The value of a field of a JSON object. *)
Definition field (k : string) (v : json) : option json :=
  match v with
  | JObj fields => snd <$> find (fun kv => String.eqb kv.1 k) fields
  | _ => None
  end.

(** The extensions of a payload {data?, errors?, extensions?}: where the
    response-cache stage puts its metadata. *)
Definition extensions_of (payload : json) : option json := field "extensions" payload.

(** The request object the handler builds for graphql-helix (lines 73-78). *)
Record HelixRequest : Type := mkHelix {
  body : json;
  headers : list (string * string);
  method : Method;
  query : list (string * string)
}.

(** Line 79: what [getGraphQLParameters] extracts. *)
Record GraphQLParams : Type := mkParams {
  operationName : option string;
  query_text : option string;
  variables : option json
}.

(** ** The process *)

Section Gateway.

(** The compiled upstream schema (graphql's GraphQLSchema). *)
Variable Schema : Type.
(** The contents of the cache backend. *)
Variable Store : Type.
(** The upstream endpoint: what the [n]-th download started by this
    process ends with, a schema or ([None]) a failure. *)
Variable upstream : nat -> FetchRequest -> option Schema.

(** What [getEnveloped] returns: the current schema, and the parse,
    validate, execute and contextFactory functions, which are determined
    by the plugin list. *)
Record Enveloped : Type := mkEnveloped {
  schema : option Schema;
  wrapped : list Plugin
}.

(** graphql-helix. *)
Variable getGraphQLParameters : HelixRequest -> GraphQLParams.
Variable processRequest :
  GraphQLParams -> HelixRequest -> Enveloped -> Store ->
  ProcessRequestResult * Store.

(** The module-level bindings and the part of the runtime they refer to.
    [promises] is the promise heap, [fetch_log] the downloads started so
    far, oldest first. *)
Record Process : Type := mkProcess {
  devMode : bool;
  env : Env;
  the_cache : Cache;
  plugins : list Plugin;
  promises : list (Promise Schema);
  fetch_log : list FetchRequest;
  store : Store
}.

(** Line 10. *)
Definition read_devMode (env0 : Env) : bool :=
  bool_decide (env0 !! "NODE_ENV" = Some "development").

(** Lines 15-24: every call of [getSchema] starts a download and returns
    a new pending promise for it. *)
Definition getSchema (e : Env)
    (heap : list (Promise Schema)) (log : list FetchRequest)
  : PromiseId * list (Promise Schema) * list FetchRequest :=
  (length heap, heap ++ [Pending], log ++ [schema_request e]).

(** Lines 40-52. *)
Definition build_plugins (dev : bool) (p : PromiseId) (c : Cache) : list Plugin :=
  let plugins :=
    [ useAsyncSchema p;
      useResponseCache {| includeExtensionMetadata := true;
                          ignoredTypes := [];
                          cache := c |} ] in
  if dev then plugins ++ [useLogger] else plugins.

(** The module body, lines 10-55, on the environment the process was
    started with and the parsed .env file. *)
Definition init (env0 file : Env) (store0 : Store) : Process :=
  let dev := read_devMode env0 in
  let e := dotenv_config env0 file in
  let c := createCache dev e in
  let '(p, heap, log) := getSchema e [] [] in
  {| devMode := dev; env := e; the_cache := c;
     plugins := build_plugins dev p c;
     promises := heap; fetch_log := log; store := store0 |}.

(** envelop's [useAsyncSchema]: the schema is the value of the promise
    the plugin was given, once that promise is fulfilled. *)
Definition schema_source (ps : list Plugin) : option PromiseId :=
  head (omap (fun pl => match pl with useAsyncSchema p => Some p | _ => None end) ps).

Definition current_schema (st : Process) : option Schema :=
  p ← schema_source (plugins st);
  pr ← promises st !! p;
  match pr with Fulfilled s => Some s | _ => None end.

(** Lines 70-72. *)
Definition getEnveloped (st : Process) : Enveloped :=
  {| schema := current_schema st; wrapped := plugins st |}.

Definition with_store (st : Process) (s : Store) : Process :=
  {| devMode := devMode st; env := env st; the_cache := the_cache st;
     plugins := plugins st; promises := promises st;
     fetch_log := fetch_log st; store := s |}.

Definition with_promises (st : Process) (ps : list (Promise Schema)) : Process :=
  {| devMode := devMode st; env := env st; the_cache := the_cache st;
     plugins := plugins st; promises := ps;
     fetch_log := fetch_log st; store := store st |}.

(** Lines 73-92: the result helix computes for a request. *)
Definition process (st : Process) (req : Request) : ProcessRequestResult * Store :=
  let enveloped := getEnveloped st in
  let request := {| body := req_body req; headers := req_headers req;
                    method := req_method req; query := req_query req |} in
  processRequest (getGraphQLParameters request) request enveloped (store st).

(** Lines 67-102: the handler of the /graphql route.  The schema the
    request works with is the one [getEnveloped] returned on line 70,
    before the handler awaits helix, so a request is one step. *)
Definition handler (st : Process) (req : Request) : Process * Reply :=
  let '(result, store') := process st req in
  (with_store st store', respond result fresh_reply).

(** Lines 60-62: the handler of the / route. *)
Definition hello (res : Reply) : Reply := res_send (JStr "Hello World!") res.

(** The two routes of the program (lines 60 and 64-66).  [None] says
    that no handler of the program runs: the request matches neither
    route, and what the framework then answers is not modelled. *)
Definition dispatch (st : Process) (req : Request) : option (Process * Reply) :=
  if bool_decide (req_method req = GET) && String.eqb (req_path req) "/"
  then Some (st, hello fresh_reply)
  else if bool_decide (req_method req ∈ [POST; GET])
          && String.eqb (req_path req) "/graphql"
  then Some (handler st req)
  else None.

(** ** The event loop *)

Inductive Event : Type :=
  | SchemaSettled (p : PromiseId)
  | Incoming (req : Request).

(** The download behind promise [p] ends: the promise settles with what
    the upstream answered to that download. *)
Definition settle_download (st : Process) (p : PromiseId) : Process :=
  match promises st !! p, fetch_log st !! p with
  | Some pr, Some f => with_promises st (<[p := settle (upstream p f) pr]> (promises st))
  | _, _ => st
  end.

Definition step (st : Process) (ev : Event) : Process * option Reply :=
  match ev with
  | SchemaSettled p => (settle_download st p, None)
  | Incoming req =>
      match dispatch st req with
      | Some (st', res) => (st', Some res)
      | None => (st, None)
      end
  end.

Fixpoint run (st : Process) (evs : list Event) : Process :=
  match evs with
  | [] => st
  | ev :: evs' => run (step st ev).1 evs'
  end.

(** The replies of a trace, oldest first. *)
Fixpoint replies (st : Process) (evs : list Event) : list Reply :=
  match evs with
  | [] => []
  | ev :: evs' =>
      let '(st', r) := step st ev in
      match r with Some res => res :: replies st' evs' | None => replies st' evs' end
  end.

(** The module-level constants: everything but the promise heap and the
    cache contents. *)
Definition same_bindings (a b : Process) : Prop :=
  devMode a = devMode b /\ env a = env b /\ the_cache a = the_cache b
  /\ plugins a = plugins b /\ fetch_log a = fetch_log b.

(** The heap of this program: one promise, the one of the download that
    the module body started. *)
Definition sole_promise (st : Process) (pr : Promise Schema) : Prop :=
  promises st = [pr].

(** The statement that a failed download is tried again: once the
    download of the module body has failed, a request starts a new
    download, and when the later downloads succeed the requests after it
    find a schema. *)
Definition failure_not_cached : Prop :=
  forall (env0 file : Env) (store0 : Store) (req : Request) (later : list Event),
    upstream 0 (schema_request (dotenv_config env0 file)) = None ->
    (forall n f, is_Some (upstream (S n) f)) ->
    let failed := run (init env0 file store0) [SchemaSettled 0] in
    let next := (step failed (Incoming req)).1 in
    length (fetch_log failed) < length (fetch_log next)
    /\ is_Some (current_schema (run next (SchemaSettled 1 :: later))).

(** Whether the download of the module body has settled in a trace. *)
Definition is_settlement (ev : Event) : bool :=
  match ev with
  | SchemaSettled 0 => true
  | _ => false
  end.

Definition settled (evs : list Event) : bool := existsb is_settlement evs.

(** The statement that requests issued before the download completes
    share its eventual result: the schema the handler gets on line 70,
    while only requests have arrived, is what the download ends with. *)
Definition requests_share_eventual_handle : Prop :=
  forall (env0 file : Env) (store0 : Store) (reqs : list Request),
    let st := run (init env0 file store0) (Incoming <$> reqs) in
    length (fetch_log st) = 1
    /\ schema (getEnveloped st)
       = upstream 0 (schema_request (dotenv_config env0 file)).

(** The statement that every reply of the /graphql handler carries
    extensions (in which the cache outcome would be reported). *)
Definition every_reply_has_extensions : Prop :=
  forall (env0 file : Env) (store0 : Store) (evs : list Event) (req : Request),
    let st := run (init env0 file store0) evs in
    is_Some (reply_sent (handler st req).2 ≫= extensions_of).

End Gateway.

Arguments schema {Schema} _.
Arguments wrapped {Schema} _.
Arguments devMode {Schema Store} _.
Arguments env {Schema Store} _.
Arguments the_cache {Schema Store} _.
Arguments plugins {Schema Store} _.
Arguments promises {Schema Store} _.
Arguments fetch_log {Schema Store} _.
Arguments store {Schema Store} _.
Arguments getSchema {Schema} e heap log.
Arguments init {Schema Store} env0 file store0.
Arguments current_schema {Schema Store} st.
Arguments getEnveloped {Schema Store} st.
Arguments with_store {Schema Store} st s.
Arguments with_promises {Schema Store} st ps.
Arguments process {Schema Store} getGraphQLParameters processRequest st req.
Arguments handler {Schema Store} getGraphQLParameters processRequest st req.
Arguments dispatch {Schema Store} getGraphQLParameters processRequest st req.
Arguments settle_download {Schema Store} upstream st p.
Arguments step {Schema Store} upstream getGraphQLParameters processRequest st ev.
Arguments run {Schema Store} upstream getGraphQLParameters processRequest st evs.
Arguments replies {Schema Store} upstream getGraphQLParameters processRequest st evs.
Arguments same_bindings {Schema Store} a b.
Arguments sole_promise {Schema Store} st pr.
Arguments failure_not_cached {Schema Store} upstream getGraphQLParameters processRequest.
Arguments requests_share_eventual_handle {Schema Store} upstream getGraphQLParameters processRequest.
Arguments every_reply_has_extensions {Schema Store} upstream getGraphQLParameters processRequest.

(** The options of the response-cache stage of a plugin list. *)
Definition response_cache_options (ps : list Plugin) : list ResponseCacheOptions :=
  omap (fun pl => match pl with useResponseCache o => Some o | _ => None end) ps.

(** ** The response-cache stage, as far as the options of this program
    reach into it *)

Inductive CacheOutcome : Type := HIT | MISS.

(** Modelled from the spec: the exclusion test of @envelop/response-cache,
    which is not part of the repository.  Spec 4.4 step 5: a successful
    result is written to the cache "if the result does not contain any type
    listed in the ignored-types exclusion set". *)
Definition excluded (o : ResponseCacheOptions) (result_types : list string) : bool :=
  existsb (fun t => bool_decide (t ∈ ignoredTypes o)) result_types.

(** Modelled from the spec: the metadata the response-cache stage of
    @envelop/response-cache attaches, which is not part of the repository.
    Spec 4.4 step 4-5 and 6: the extension reports the cache outcome "when
    metadata reporting is enabled". *)
Definition extension_metadata (o : ResponseCacheOptions) (outcome : CacheOutcome)
  : option CacheOutcome :=
  if includeExtensionMetadata o then Some outcome else None.

(** ** Cache keys *)

(** Modelled from the spec: the "stable ordering of mapping keys" of spec
    4.3, as an insertion sort of the fields of an object by key. *)
Fixpoint insert_field (f : string * json) (fs : list (string * json))
  : list (string * json) :=
  match fs with
  | [] => [f]
  | g :: gs => if String.leb f.1 g.1 then f :: g :: gs else g :: insert_field f gs
  end.

Definition sort_fields (fs : list (string * json)) : list (string * json) :=
  foldr insert_field [] fs.

(** Modelled from the spec: the canonical form of the variables, computed
    by the key derivation of @envelop/response-cache, which is not part of
    the repository.  Spec 4.3: "Must canonicalize variables (stable ordering
    of mapping keys)". *)
Fixpoint canonicalize (v : json) : json :=
  match v with
  | JArr items => JArr (map canonicalize items)
  | JObj fields =>
      JObj (sort_fields (map (fun kv => (kv.1, canonicalize kv.2)) fields))
  | atom => atom
  end.

Record KeyInput : Type := mkKeyInput {
  key_document : string;
  key_operationName : option string;
  key_variables : json;
  key_context : list (string * string)
}.

(** Modelled from the spec: [deriveKey] of spec 4.3, the key derivation of
    @envelop/response-cache, which is not part of the repository (the
    program passes no key function of its own, lines 42-46).  "computes a
    deterministic fingerprint from an operation's normalized document,
    operation name, variables, and any context-sensitive session/identity
    fields declared cacheable", the variables canonicalized "before
    hashing/concatenating".  The hash is a parameter. *)
Definition deriveKey {CacheKey : Type} (fingerprint : KeyInput -> CacheKey)
    (operationDocument : string) (operationName : option string)
    (variables : json) (contextFields : list (string * string)) : CacheKey :=
  fingerprint {| key_document := operationDocument;
                 key_operationName := operationName;
                 key_variables := canonicalize variables;
                 key_context := contextFields |}.

(** The fields of a canonical object are in the order of their keys. *)
Definition key_le (f g : string * json) : Prop := String.leb f.1 g.1 = true.

(** A JSON value is well formed when no object has two fields with the
    same key. *)
Fixpoint wf_json (v : json) : bool :=
  match v with
  | JArr items => forallb wf_json items
  | JObj fields =>
      bool_decide (NoDup (map fst fields))
      && forallb (fun kv => wf_json kv.2) fields
  | _ => true
  end.

(** [reordered v w]: [w] is [v] with the fields of its objects, at any
    depth, written in another order. *)
#[warnings="-register-all"]
Inductive reordered : json -> json -> Prop :=
  | reordered_atom v : reordered v v
  | reordered_arr items items' :
      Forall2 reordered items items' ->
      reordered (JArr items) (JArr items')
  | reordered_obj fields moved fields' :
      Forall2 (fun f g => f.1 = g.1 /\ reordered f.2 g.2) fields moved ->
      Permutation moved fields' ->
      reordered (JObj fields) (JObj fields').

(** ** Where the server listens (lines 105-107) *)

Definition appPort (devMode : bool) : Z := if devMode then 3000 else 8080.

Definition appServer (devMode : bool) : string :=
  if devMode then "localhost" else "0.0.0.0".

(** A helix result with its headers left out. *)
Definition without_headers (r : ProcessRequestResult) : ProcessRequestResult :=
  match r with
  | Response status _ payload => Response status [] payload
  | other => other
  end.

(** ** A concrete deployment, used to run the definitions *)

Module Demo.

(** The schema is stood for by its SDL text; the cache contents by the
    number of requests processed. *)
Definition Schema : Type := string.
Definition Store : Type := nat.

(** An upstream whose first download fails and every later one succeeds. *)
Definition flaky (n : nat) (_ : FetchRequest) : option Schema :=
  match n with
  | O => None
  | S _ => Some "type Query { shop: Shop }"
  end.

(** An upstream that always answers. *)
Definition healthy (_ : nat) (_ : FetchRequest) : option Schema :=
  Some "type Query { shop: Shop }".

Definition params (r : HelixRequest) : GraphQLParams :=
  {| operationName := None; query_text := Some "{ shop { name } }";
     variables := None |}.

Definition shop_payload : json :=
  JObj [("data", JObj [("shop", JObj [("name", JStr "demo")])])].

Definition unavailable_payload : json :=
  JObj [("errors", JArr [JObj [("message", JStr "schema unavailable")]])].

(** An engine that answers every query once it has a schema. *)
Definition answering (_ : GraphQLParams) (_ : HelixRequest)
    (e : Enveloped Schema) (s : Store) : ProcessRequestResult * Store :=
  match schema e with
  | Some _ => (Response 200 [] shop_payload, S s)
  | None => (Response 500 [] unavailable_payload, S s)
  end.

(** An engine that streams every result. *)
Definition streaming (_ : GraphQLParams) (_ : HelixRequest)
    (_ : Enveloped Schema) (s : Store) : ProcessRequestResult * Store :=
  (Push, S s).

Definition production : Env :=
  {[ "NODE_ENV" := "production"; "SHOPIFY_STORE" := "demo.myshopify.com" ]}.
Definition development : Env := {[ "NODE_ENV" := "development" ]}.
Definition dotfile : Env :=
  {[ "NODE_ENV" := "development";
     "REDIS_CONNECTION_STRING" := "redis://cache:6379";
     "STOREFRONT_API_VERSION" := "2021-07" ]}.

Definition graphql_post : Request :=
  {| req_method := POST; req_path := "/graphql"; req_headers := [];
     req_query := [];
     req_body := JObj [("query", JStr "{ shop { name } }")] |}.

Definition root_get : Request :=
  {| req_method := GET; req_path := "/"; req_headers := [];
     req_query := []; req_body := JNull |}.

Definition vars_ab : json :=
  JObj [("first", JNum 10); ("filter", JObj [("tag", JStr "new"); ("sort", JStr "asc")])].
Definition vars_ba : json :=
  JObj [("filter", JObj [("sort", JStr "asc"); ("tag", JStr "new")]); ("first", JNum 10)].

(** The engine [answering], with response headers. *)
Definition answering_with_headers (p : GraphQLParams) (r : HelixRequest)
    (e : Enveloped Schema) (s : Store) : ProcessRequestResult * Store :=
  match answering p r e s with
  | (Response status _ payload, s') =>
      (Response status [("cache-control", "no-store")] payload, s')
  | other => other
  end.

(** A start without NODE_ENV and without the store settings. *)
Definition bare : Env := {[ "STOREFRONT_API_VERSION" := "2021-07" ]}.
Definition dev_dotfile : Env :=
  {[ "NODE_ENV" := "development";
     "REDIS_CONNECTION_STRING" := "redis://cache:6379" ]}.

End Demo.

(** * Properties *)

Example demo_production_boot :
  let st := init (Schema:=Demo.Schema) Demo.production Demo.dotfile 0%nat in
  devMode st = false
  /\ the_cache st = RedisCache (Some "redis://cache:6379")
  /\ fetch_log st =
       [ {| fetch_url := "https://demo.myshopify.com/api/2021-07/graphql.json";
            fetch_headers := [("X-Shopify-Storefront-Access-Token", None)] |} ]
  /\ promises st = [Pending].
Proof. vm_compute. repeat split. Qed.

Example demo_healthy_trace :
  replies Demo.healthy Demo.params Demo.answering
    (init Demo.production Demo.dotfile 0%nat)
    [Incoming Demo.graphql_post; SchemaSettled 0; Incoming Demo.graphql_post]
  = [ {| reply_status := 500; reply_sent := Some Demo.unavailable_payload |};
      {| reply_status := 200; reply_sent := Some Demo.shop_payload |} ].
Proof. vm_compute. reflexivity. Qed.

Example demo_canonical : canonicalize Demo.vars_ab = canonicalize Demo.vars_ba.
Proof. vm_compute. reflexivity. Qed.

Example demo_flaky_trace :
  replies Demo.flaky Demo.params Demo.answering
    (init Demo.production Demo.dotfile 0%nat)
    [Incoming Demo.graphql_post; SchemaSettled 0; Incoming Demo.graphql_post;
     Incoming Demo.root_get; SchemaSettled 1; Incoming Demo.graphql_post]
  = [ {| reply_status := 500; reply_sent := Some Demo.unavailable_payload |};
      {| reply_status := 500; reply_sent := Some Demo.unavailable_payload |};
      {| reply_status := 200; reply_sent := Some (JStr "Hello World!") |};
      {| reply_status := 500; reply_sent := Some Demo.unavailable_payload |} ].
Proof. vm_compute. reflexivity. Qed.

(** ** What an event leaves alone *)

Section Frame.

Context {Schema Store : Type}.
Variable upstream : nat -> FetchRequest -> option Schema.
Variable getGraphQLParameters : HelixRequest -> GraphQLParams.
Variable processRequest :
  GraphQLParams -> HelixRequest -> Enveloped Schema -> Store ->
  ProcessRequestResult * Store.

Local Abbreviation Proc := (Process Schema Store).
Local Abbreviation step' := (step upstream getGraphQLParameters processRequest).
Local Abbreviation run' := (run upstream getGraphQLParameters processRequest).

Lemma same_bindings_refl (a : Proc) : same_bindings a a.
Proof. by repeat split. Qed.

Lemma same_bindings_trans (a b c : Proc) :
  same_bindings a b -> same_bindings b c -> same_bindings a c.
Proof.
  unfold same_bindings. intros (-> & -> & -> & -> & ->) H. exact H.
Qed.

Lemma settle_download_bindings (st : Proc) p :
  same_bindings st (settle_download upstream st p).
Proof.
  unfold settle_download.
  destruct (promises st !! p), (fetch_log st !! p);
    by repeat split.
Qed.

Lemma handler_bindings (st : Proc) req :
  same_bindings st (handler getGraphQLParameters processRequest st req).1.
Proof.
  unfold handler. destruct (process _ _ st req). by repeat split.
Qed.

Lemma handler_promises (st : Proc) req :
  promises (handler getGraphQLParameters processRequest st req).1 = promises st.
Proof. unfold handler. by destruct (process _ _ st req). Qed.

Lemma dispatch_bindings (st st' : Proc) req res :
  dispatch getGraphQLParameters processRequest st req = Some (st', res) ->
  same_bindings st st' /\ promises st' = promises st.
Proof.
  unfold dispatch.
  destruct (_ && _).
  - intros ?; simplify_eq. split; [apply same_bindings_refl | done].
  - destruct (_ && _); [|done].
    intros H.
    pose proof (handler_bindings st req) as Hb.
    pose proof (handler_promises st req) as Hp.
    destruct (handler _ _ st req) as [h r]; simpl in *. by simplify_eq.
Qed.

Lemma step_bindings (st : Proc) ev : same_bindings st (step' st ev).1.
Proof.
  destruct ev as [p | req]; simpl.
  - apply settle_download_bindings.
  - destruct (dispatch _ _ st req) as [[st' res]|] eqn:E; simpl.
    + by apply dispatch_bindings in E as [? _].
    + apply same_bindings_refl.
Qed.

Lemma run_bindings evs : forall st : Proc, same_bindings st (run' st evs).
Proof.
  induction evs as [|ev evs IH]; intros st; simpl.
  - apply same_bindings_refl.
  - eapply same_bindings_trans; [apply step_bindings | apply IH].
Qed.

Lemma run_app (st : Proc) evs evs' :
  run' st (evs ++ evs') = run' (run' st evs) evs'.
Proof. revert st. induction evs as [|ev evs IH]; intros st; simpl; [done | apply IH]. Qed.

(** Requests never touch the promise heap. *)
Lemma step_incoming_promises (st : Proc) req :
  promises (step' st (Incoming req)).1 = promises st.
Proof.
  simpl. destruct (dispatch _ _ st req) as [[st' res]|] eqn:E; simpl; [|done].
  by apply dispatch_bindings in E as [_ ?].
Qed.

Lemma step_sole_promise (st : Proc) ev f pr :
  fetch_log st = [f] -> sole_promise st pr ->
  sole_promise (step' st ev).1
    (match ev with
     | SchemaSettled 0 => settle (upstream 0 f) pr
     | _ => pr
     end).
Proof.
  unfold sole_promise. intros Hf Hp. destruct ev as [p | req].
  - simpl. unfold settle_download. rewrite Hp, Hf.
    by destruct p as [|p].
  - by rewrite step_incoming_promises.
Qed.

Lemma settle_settled (o : option Schema) pr :
  pr <> Pending -> settle o pr = pr.
Proof. by destruct pr. Qed.

Lemma settle_idem (o : option Schema) pr :
  pr = Pending \/ pr = settle o Pending ->
  settle o pr = settle o Pending.
Proof. intros [-> | ->]; [done|]. by destruct o. Qed.

End Frame.

(** ** The module body and the traces that start from it *)

Section Claims.

Context {Schema Store : Type}.
Variable upstream : nat -> FetchRequest -> option Schema.
Variable getGraphQLParameters : HelixRequest -> GraphQLParams.
Variable processRequest :
  GraphQLParams -> HelixRequest -> Enveloped Schema -> Store ->
  ProcessRequestResult * Store.

Local Abbreviation Proc := (Process Schema Store).
Local Abbreviation step' := (step upstream getGraphQLParameters processRequest).
Local Abbreviation run' := (run upstream getGraphQLParameters processRequest).
Local Abbreviation handler' := (handler getGraphQLParameters processRequest).
Local Abbreviation process' := (process getGraphQLParameters processRequest).
Local Abbreviation boot := (init (Schema:=Schema) (Store:=Store)).

Lemma run_boot_bindings (env0 file : Env) (store0 : Store) (evs : list Event) :
  same_bindings (boot env0 file store0) (run' (boot env0 file store0) evs).
Proof. apply run_bindings. Qed.

Lemma run_boot_fetch_log (env0 file : Env) (store0 : Store) (evs : list Event) :
  fetch_log (run' (boot env0 file store0) evs)
  = [schema_request (dotenv_config env0 file)].
Proof. by destruct (run_boot_bindings env0 file store0 evs) as (_&_&_&_&<-). Qed.

Lemma run_boot_plugins (env0 file : Env) (store0 : Store) (evs : list Event) :
  plugins (run' (boot env0 file store0) evs)
  = build_plugins (read_devMode env0) 0
      (createCache (read_devMode env0) (dotenv_config env0 file)).
Proof. by destruct (run_boot_bindings env0 file store0 evs) as (_&_&_&<-&_). Qed.

Lemma response_cache_options_build dev p c :
  response_cache_options (build_plugins dev p c)
  = [ {| includeExtensionMetadata := true; ignoredTypes := []; cache := c |} ].
Proof. by destruct dev. Qed.

Lemma schema_source_build dev p c : schema_source (build_plugins dev p c) = Some p.
Proof. by destruct dev. Qed.

(** Along any trace the heap holds the one promise, pending or settled
    with the answer to the one download. *)
Lemma run_sole_promise (st : Proc) f evs :
  fetch_log st = [f] ->
  sole_promise st Pending \/ sole_promise st (settle (upstream 0 f) Pending) ->
  sole_promise (run' st evs) Pending
  \/ sole_promise (run' st evs) (settle (upstream 0 f) Pending).
Proof.
  revert st. induction evs as [|ev evs IH]; intros st Hf Hp; [done|].
  simpl. apply IH.
  - by destruct (step_bindings upstream getGraphQLParameters processRequest st ev)
      as (_&_&_&_&<-).
  - destruct Hp as [Hp | Hp];
      apply (step_sole_promise upstream getGraphQLParameters processRequest _ ev f) in Hp;
      try done; destruct ev as [[|p] | req]; auto.
    right. by rewrite settle_idem in Hp; [|right].
Qed.

(** Once the promise is settled, no event changes it. *)
Lemma run_settled (st : Proc) f pr evs :
  fetch_log st = [f] -> pr <> Pending ->
  sole_promise st pr -> sole_promise (run' st evs) pr.
Proof.
  revert st. induction evs as [|ev evs IH]; intros st Hf Hne Hp; [done|].
  simpl. apply IH; [|done|].
  - by destruct (step_bindings upstream getGraphQLParameters processRequest st ev)
      as (_&_&_&_&<-).
  - apply (step_sole_promise upstream getGraphQLParameters processRequest _ ev f) in Hp;
      [|done].
    destruct ev as [[|p] | req]; auto. by rewrite settle_settled in Hp.
Qed.

Lemma run_requests_pending (st : Proc) (reqs : list Request) :
  promises (run' st (Incoming <$> reqs)) = promises st.
Proof.
  revert st. induction reqs as [|r reqs IH]; intros st; [done|].
  simpl. rewrite IH.
  apply (step_incoming_promises upstream getGraphQLParameters processRequest).
Qed.

Lemma current_schema_sole (st : Proc) dev c pr :
  plugins st = build_plugins dev 0 c -> sole_promise st pr ->
  current_schema st = match pr with Fulfilled s => Some s | _ => None end.
Proof.
  unfold current_schema, sole_promise. intros -> ->.
  by rewrite schema_source_build.
Qed.

Lemma boot_sole_promise (env0 file : Env) (store0 : Store) :
  sole_promise (boot env0 file store0) Pending.
Proof. done. Qed.

Lemma settle_twice (o : option Schema) (pr : Promise Schema) :
  settle o (settle o pr) = settle o pr.
Proof. by destruct pr, o. Qed.

(** The heap along a trace, exactly: the one promise, settled once the
    settlement of the download is among the events. *)
Lemma run_sole_promise_exact (f : FetchRequest) (evs : list Event) :
  forall (st : Proc) (pr : Promise Schema),
    fetch_log st = [f] -> sole_promise st pr ->
    sole_promise (run' st evs)
      (if settled evs then settle (upstream 0 f) pr else pr).
Proof.
  induction evs as [|ev evs IH]; intros st pr Hf Hp; [done|].
  simpl.
  assert (fetch_log (step' st ev).1 = [f]) as Hf'.
  { by destruct (step_bindings upstream getGraphQLParameters processRequest st ev)
      as (_&_&_&_&<-). }
  apply (step_sole_promise upstream getGraphQLParameters processRequest _ ev f) in Hp;
    [|done].
  specialize (IH _ _ Hf' Hp).
  destruct ev as [[|p] | req]; simpl in *; [|done|done].
  destruct (settled evs); [by rewrite settle_twice in IH | done].
Qed.

(** C2, as the program has it.  The schema is acquired once and is not
    waited for: whatever events arrive, requests or settlements, in
    whatever number and order, the process has started exactly one schema
    download (the one of the module body), its heap holds exactly one
    promise and the schema stage of every request reads that promise.  A
    request handled before the download has settled is given no schema; a
    request handled after it is given what the download ended with, the
    same for all of them. *)
Theorem schema_acquired_once_and_not_awaited
    (env0 file : Env) (store0 : Store) (evs : list Event) :
  let st := run' (boot env0 file store0) evs in
  let f := schema_request (dotenv_config env0 file) in
  fetch_log st = [f]
  /\ promises st = [if settled evs then settle (upstream 0 f) Pending else Pending]
  /\ schema_source (plugins st) = Some 0
  /\ wrapped (getEnveloped st) = plugins (boot env0 file store0)
  /\ schema (getEnveloped st) = (if settled evs then upstream 0 f else None).
Proof.
  intros st f.
  pose proof (run_boot_fetch_log env0 file store0 evs) as Hlog.
  pose proof (run_boot_plugins env0 file store0 evs) as Hpl.
  pose proof (run_sole_promise_exact f evs (boot env0 file store0) Pending eq_refl
                (boot_sole_promise env0 file store0)) as Hheap.
  fold st in Hlog, Hpl, Hheap.
  split; [done|]. split; [exact Hheap|].
  split; [by rewrite Hpl, schema_source_build|].
  split; [by simpl; rewrite Hpl|].
  simpl. rewrite (current_schema_sole st _ _ _ Hpl Hheap).
  destruct (settled evs); [|done]. by destruct (upstream 0 f).
Qed.

(** C1, as the program has it.  A failed schema download is final: when
    the one download of the module body fails, then from its settlement
    on, whatever events follow, no further download is started, the
    promise stays rejected and no request is given a schema. *)
Theorem schema_failure_is_permanent
    (env0 file : Env) (store0 : Store) (before after : list Event) :
  upstream 0 (schema_request (dotenv_config env0 file)) = None ->
  let st := run' (boot env0 file store0) (before ++ SchemaSettled 0 :: after) in
  fetch_log st = [schema_request (dotenv_config env0 file)]
  /\ promises st = [Rejected]
  /\ schema (getEnveloped st) = None.
Proof.
  intros Hfail st.
  set (f := schema_request (dotenv_config env0 file)) in *.
  pose proof (run_boot_fetch_log env0 file store0
                (before ++ SchemaSettled 0 :: after)) as Hlog.
  pose proof (run_boot_plugins env0 file store0
                (before ++ SchemaSettled 0 :: after)) as Hpl.
  fold st in Hlog, Hpl.
  assert (sole_promise st Rejected) as Hrej.
  { unfold st. rewrite run_app. simpl.
    set (mid := run' (boot env0 file store0) before).
    assert (fetch_log mid = [f]) as Hmid
      by apply run_boot_fetch_log.
    apply (run_settled _ f); [|done|].
    - by destruct (settle_download_bindings upstream mid 0) as (_&_&_&_&<-).
    - destruct (run_sole_promise (boot env0 file store0) f before eq_refl
                  (or_introl (boot_sole_promise env0 file store0))) as [H | H];
        fold mid in H;
        apply (step_sole_promise upstream getGraphQLParameters processRequest
                 _ (SchemaSettled 0) f) in H; try done;
        by rewrite Hfail in H. }
  split; [done|]. split; [done|].
  simpl. by rewrite (current_schema_sole st _ _ _ Hpl Hrej).
Qed.

(** C3. The cache backend is decided by the module body alone: the
    in-memory cache when NODE_ENV was development at start, otherwise the
    Redis cache on REDIS_CONNECTION_STRING; after any trace of events the
    process still has that backend, and it is the one the response-cache
    stage was given. *)
Theorem cache_backend_fixed_at_start
    (env0 file : Env) (store0 : Store) (evs : list Event) :
  let st := run' (boot env0 file store0) evs in
  the_cache st
  = (if bool_decide (env0 !! "NODE_ENV" = Some "development")
     then InMemoryCache
     else RedisCache (dotenv_config env0 file !! "REDIS_CONNECTION_STRING"))
  /\ the_cache st = the_cache (boot env0 file store0)
  /\ devMode st = devMode (boot env0 file store0)
  /\ cache <$> response_cache_options (plugins st) = [the_cache st].
Proof.
  intros st.
  destruct (run_boot_bindings env0 file store0 evs) as (Hd & _ & Hc & Hp & _).
  fold st in Hd, Hc, Hp. rewrite <- Hc, <- Hd, <- Hp.
  repeat split. simpl. unfold build_plugins. by destruct (read_devMode env0).
Qed.

(** C5. The plugin list is the schema stage, then the response-cache
    stage, then (exactly in development mode) the logger; no event
    changes it. *)
Theorem plugins_in_fixed_order
    (env0 file : Env) (store0 : Store) (evs : list Event) :
  let st := run' (boot env0 file store0) evs in
  plugins st
  = [ useAsyncSchema 0;
      useResponseCache {| includeExtensionMetadata := true;
                          ignoredTypes := [];
                          cache := the_cache st |} ]
    ++ (if devMode st then [useLogger] else [])
  /\ devMode st = bool_decide (env0 !! "NODE_ENV" = Some "development")
  /\ (useLogger ∈ plugins st <-> devMode st = true).
Proof.
  intros st.
  destruct (run_boot_bindings env0 file store0 evs) as (Hd & _ & Hc & Hp & _).
  fold st in Hd, Hc, Hp. rewrite <- Hc, <- Hd, <- Hp. simpl.
  unfold build_plugins, createCache, read_devMode.
  destruct (bool_decide _); simpl.
  - split; [done|]. split; [done|]. split; [done|].
    intros _. apply list_elem_of_In. simpl. tauto.
  - split; [done|]. split; [done|]. split; [|done].
    intros H%list_elem_of_In. simpl in H. by destruct H as [?|[?|[]]].
Qed.

Lemma result_type_response (r : ProcessRequestResult) :
  result_type r = "RESPONSE" <-> exists st hs pl, r = Response st hs pl.
Proof.
  destruct r; simpl; split; try done; eauto; by intros (?&?&?&?).
Qed.

(** The /graphql route runs the handler, for POST and for GET. *)
Lemma dispatch_graphql (st : Proc) (req : Request) :
  req_path req = "/graphql" -> req_method req = POST \/ req_method req = GET ->
  dispatch getGraphQLParameters processRequest st req = Some (handler' st req).
Proof.
  unfold dispatch. intros -> Hm. simpl. rewrite andb_false_r.
  rewrite bool_decide_eq_true_2; [done|].
  destruct Hm as [-> | ->]; apply list_elem_of_In; simpl; tauto.
Qed.

(** C4. When helix resolves to a result whose type is not RESPONSE, the
    handler completes and sends the fixed payload
    {errors: [{message: 'Not Supported in this demo'}]}; the status is
    left at the framework's 200. *)
Theorem unsupported_result_gets_fixed_payload (st : Proc) (req : Request) :
  result_type (process' st req).1 <> "RESPONSE" ->
  (handler' st req).2
  = {| reply_status := 200;
       reply_sent :=
         Some (JObj [("errors",
                      JArr [JObj [("message", JStr "Not Supported in this demo")]])]) |}.
Proof.
  unfold handler. destruct (process' st req) as [r s']. simpl.
  by destruct r.
Qed.

(** C6. When helix resolves to a result of type RESPONSE, the handler
    sets the reply status to the status of the result and sends the
    payload of the result as it is. *)
Theorem response_result_passed_through
    (st : Proc) (req : Request) (status : Z)
    (hs : list (string * string)) (payload : json) :
  (process' st req).1 = Response status hs payload ->
  result_type (process' st req).1 = "RESPONSE"
  /\ (handler' st req).2
     = {| reply_status := status; reply_sent := Some payload |}.
Proof.
  unfold handler. destruct (process' st req) as [r s']. simpl.
  by intros ->.
Qed.

(** C10. A GET request for / is answered with 'Hello World!' in every
    state of the process, and leaves the state as it is. *)
Theorem liveness_route_fixed_greeting (st : Proc) (req : Request) :
  req_method req = GET -> req_path req = "/" ->
  step' st (Incoming req)
  = (st, Some {| reply_status := 200; reply_sent := Some (JStr "Hello World!") |}).
Proof.
  intros Hm Hp. simpl. unfold dispatch. by rewrite Hm, Hp.
Qed.

(** C8. The response-cache stage is configured with an empty
    ignored-types list, at start and after any trace, so the exclusion
    test rejects no result, whatever types it contains. *)
Theorem ignored_types_exclude_nothing
    (env0 file : Env) (store0 : Store) (evs : list Event) :
  let st := run' (boot env0 file store0) evs in
  exists o,
    response_cache_options (plugins st) = [o]
    /\ ignoredTypes o = []
    /\ forall result_types : list string, excluded o result_types = false.
Proof.
  intros st. unfold st.
  rewrite run_boot_plugins, response_cache_options_build.
  eexists. split; [done|]. split; [done|].
  intros tys. unfold excluded. simpl.
  induction tys as [|t tys IH]; [done|]. exact IH.
Qed.


End Claims.

(** ** Cache keys do not depend on the order of the variables *)

Section KeyOrder.

Lemma leb_refl (a : string) : String.leb a a = true.
Proof.
  unfold String.leb.
  by rewrite (proj2 (String_as_OT.cmp_eq a a) eq_refl : String.compare a a = Eq).
Qed.

Lemma leb_trans (a b c : string) :
  String.leb a b = true -> String.leb b c = true -> String.leb a c = true.
Proof.
  unfold String.leb.
  destruct (String.compare a b) eqn:Hab; [|
    destruct (String.compare b c) eqn:Hbc |]; try done.
  - apply String_as_OT.cmp_eq in Hab as ->. done.
  - apply String_as_OT.cmp_eq in Hbc as ->. by rewrite Hab.
  - intros _ _.
    apply String_as_OT.cmp_lt in Hab, Hbc.
    pose proof (String_as_OT.lt_trans _ _ _ Hab Hbc) as Hac.
    apply String_as_OT.cmp_lt in Hac. unfold String_as_OT.cmp in Hac.
    by rewrite Hac.
Qed.

Lemma insert_field_perm f fs : Permutation (insert_field f fs) (f :: fs).
Proof.
  induction fs as [|g gs IH]; simpl; [done|].
  destruct (String.leb f.1 g.1); [done|].
  rewrite IH. apply perm_swap.
Qed.

Lemma sort_fields_perm fs : Permutation (sort_fields fs) fs.
Proof.
  induction fs as [|f fs IH]; simpl; [done|].
  rewrite insert_field_perm. by constructor.
Qed.

Lemma insert_field_sorted f fs :
  StronglySorted key_le fs -> StronglySorted key_le (insert_field f fs).
Proof.
  induction 1 as [|g gs Hs IH Hall]; simpl.
  - repeat constructor.
  - destruct (String.leb f.1 g.1) eqn:Hfg.
    + constructor; [by constructor|].
      constructor; [done|].
      eapply Forall_impl; [exact Hall|].
      intros h Hgh. unfold key_le in *. by eapply leb_trans.
    + constructor; [done|].
      rewrite insert_field_perm. constructor; [|done].
      unfold key_le. by destruct (String.leb_total f.1 g.1) as [H|H]; [congruence|].
Qed.

Lemma sort_fields_sorted fs : StronglySorted key_le (sort_fields fs).
Proof.
  induction fs as [|f fs IH]; simpl; [constructor | by apply insert_field_sorted].
Qed.

(** Two sorted lists of fields with the same fields and no repeated key
    are the same list. *)
Lemma sorted_fields_unique (l1 l2 : list (string * json)) :
  StronglySorted key_le l1 -> StronglySorted key_le l2 ->
  NoDup (map fst l1) -> Permutation l1 l2 -> l1 = l2.
Proof.
  intros H1. revert l2.
  induction H1 as [|a l1 Hs1 IH Ha]; intros l2 H2 Hnd Hp.
  - by apply Permutation_nil in Hp.
  - destruct H2 as [|b l2 Hs2 Hb].
    { symmetry in Hp. by apply Permutation_nil in Hp. }
    inversion Hnd as [|? ? Hnotin Hnd']; subst.
    assert (a = b) as ->.
    { assert (In a (b :: l2)) as Hin
        by (eapply Permutation_in; [exact Hp | by left]).
      destruct Hin as [-> | Hin]; [done|].
      assert (In b (a :: l1)) as Hin'
        by (eapply Permutation_in; [symmetry; exact Hp | by left]).
      destruct Hin' as [-> | Hin']; [done|].
      exfalso. apply Hnotin.
      rewrite Forall_forall in Ha, Hb.
      specialize (Ha _ (proj2 (list_elem_of_In _ _) Hin')).
      specialize (Hb _ (proj2 (list_elem_of_In _ _) Hin)).
      rewrite (String.leb_antisym _ _ Ha Hb).
      apply list_elem_of_In, in_map, Hin'. }
    f_equal. apply IH; [done | done |].
    by apply Permutation_cons_inv in Hp.
Qed.

Lemma sort_fields_order_insensitive (l1 l2 : list (string * json)) :
  NoDup (map fst l1) -> Permutation l1 l2 -> sort_fields l1 = sort_fields l2.
Proof.
  intros Hnd Hp.
  apply sorted_fields_unique; try apply sort_fields_sorted.
  - by rewrite sort_fields_perm.
  - rewrite sort_fields_perm, Hp. symmetry. apply sort_fields_perm.
Qed.

Lemma canonical_keys (fs : list (string * json)) :
  map fst (map (fun kv => (kv.1, canonicalize kv.2)) fs) = map fst fs.
Proof. induction fs as [|f fs IH]; simpl; [done | by rewrite IH]. Qed.

(** Reordering the fields of objects, at any depth, does not change the
    canonical form. *)
Lemma canonicalize_reordered :
  forall v w, reordered v w -> wf_json v = true -> canonicalize v = canonicalize w.
Proof.
  fix IH 3. intros v w H.
  destruct H as [v | items items' Hall | fields moved fields' Hall Hperm].
  - reflexivity.
  - intros Hwf. simpl in Hwf. simpl. f_equal.
    induction Hall as [| x y l l' Hxy Hl IHl]; [reflexivity|].
    simpl in Hwf. apply andb_prop in Hwf as [Hx Hwf].
    simpl. rewrite (IH _ _ Hxy Hx), (IHl Hwf). reflexivity.
  - intros Hwf. simpl in Hwf. apply andb_prop in Hwf as [Hnd Hwf].
    apply bool_decide_eq_true_1 in Hnd.
    assert (map (fun kv => (kv.1, canonicalize kv.2)) fields
            = map (fun kv => (kv.1, canonicalize kv.2)) moved
            /\ map fst fields = map fst moved) as [Hmap Hkeys].
    { clear Hperm Hnd.
      induction Hall as [| x y l l' Hxy Hl IHl]; [split; reflexivity|].
      simpl in Hwf. apply andb_prop in Hwf as [Hx Hwf].
      destruct Hxy as [Hk Hr]. destruct (IHl Hwf) as [E1 E2].
      simpl. rewrite (IH _ _ Hr Hx), Hk, E1, E2. split; reflexivity. }
    clear IH. simpl. f_equal. rewrite Hmap.
    apply sort_fields_order_insensitive.
    + rewrite canonical_keys, <- Hkeys. exact Hnd.
    + apply Permutation_map. exact Hperm.
Qed.

(** C7. The cache key is a function of its inputs (deriving it twice
    gives the same key), and it does not change when the variables are
    written with the keys of their objects in another order. *)
Theorem deriveKey_deterministic_order_insensitive
    {CacheKey : Type} (fingerprint : KeyInput -> CacheKey)
    (document : string) (operationName : option string)
    (variables variables' : json) (contextFields : list (string * string)) :
  wf_json variables = true -> reordered variables variables' ->
  deriveKey fingerprint document operationName variables contextFields
  = deriveKey fingerprint document operationName variables contextFields
  /\ deriveKey fingerprint document operationName variables contextFields
     = deriveKey fingerprint document operationName variables' contextFields.
Proof.
  intros Hwf Hre. split; [reflexivity|].
  unfold deriveKey. by rewrite (canonicalize_reordered _ _ Hre Hwf).
Qed.

End KeyOrder.

(** ** The theorems at the concrete deployment *)

Lemma schema_failure_is_permanent_witness :
  Demo.flaky 0 (schema_request (dotenv_config Demo.production Demo.dotfile)) = None
  /\ let st :=
       run Demo.flaky Demo.params Demo.answering
         (init Demo.production Demo.dotfile 0%nat)
         ([Incoming Demo.graphql_post]
          ++ SchemaSettled 0
             :: [Incoming Demo.graphql_post; SchemaSettled 1;
                 Incoming Demo.graphql_post]) in
     fetch_log st = [schema_request (dotenv_config Demo.production Demo.dotfile)]
     /\ promises st = [Rejected]
     /\ schema (getEnveloped st) = None.
Proof.
  split; [reflexivity|].
  apply (schema_failure_is_permanent Demo.flaky Demo.params Demo.answering
           Demo.production Demo.dotfile 0%nat).
  reflexivity.
Defined.

(** C1, as the specification has it, fails: with an upstream whose first
    download fails and whose later downloads would succeed, the request
    that follows the failure starts no download. *)
Lemma failure_is_cached :
  ~ failure_not_cached Demo.flaky Demo.params Demo.answering.
Proof.
  intros H.
  destruct (H Demo.production Demo.dotfile 0%nat Demo.graphql_post [] eq_refl)
    as [Hlt _].
  - intros n f. by eexists.
  - vm_compute in Hlt. lia.
Qed.

(** C2, as the specification has it, fails: with an upstream that
    answers, a request that arrives before the download has settled is
    not given the schema the download ends with; it is given none. *)
Lemma early_request_misses_the_handle :
  ~ requests_share_eventual_handle Demo.healthy Demo.params Demo.answering.
Proof.
  intros H.
  destruct (H Demo.production Demo.dotfile 0%nat [Demo.graphql_post]) as [_ Hs].
  vm_compute in Hs. discriminate Hs.
Qed.


Lemma unsupported_result_gets_fixed_payload_witness :
  let st := init (Schema:=Demo.Schema) Demo.development Demo.dotfile 0%nat in
  result_type (process Demo.params Demo.streaming st Demo.graphql_post).1 <> "RESPONSE"
  /\ (handler Demo.params Demo.streaming st Demo.graphql_post).2
     = {| reply_status := 200;
          reply_sent :=
            Some (JObj [("errors",
                         JArr [JObj [("message", JStr "Not Supported in this demo")]])]) |}.
Proof.
  intros st.
  assert (result_type (process Demo.params Demo.streaming st Demo.graphql_post).1
          <> "RESPONSE") as Hne by (vm_compute; discriminate).
  split; [exact Hne|].
  exact (unsupported_result_gets_fixed_payload Demo.params Demo.streaming
           st Demo.graphql_post Hne).
Defined.

Lemma response_result_passed_through_witness :
  let st :=
    run Demo.healthy Demo.params Demo.answering
      (init Demo.production Demo.dotfile 0%nat) [SchemaSettled 0] in
  (process Demo.params Demo.answering st Demo.graphql_post).1
  = Response 200 [] Demo.shop_payload
  /\ (handler Demo.params Demo.answering st Demo.graphql_post).2
     = {| reply_status := 200; reply_sent := Some Demo.shop_payload |}.
Proof.
  intros st. split; [reflexivity|].
  apply (response_result_passed_through Demo.params Demo.answering
           st Demo.graphql_post 200 [] Demo.shop_payload).
  reflexivity.
Defined.

Lemma liveness_route_fixed_greeting_witness :
  let st := init (Schema:=Demo.Schema) Demo.production Demo.dotfile 0%nat in
  req_method Demo.root_get = GET /\ req_path Demo.root_get = "/"
  /\ step Demo.flaky Demo.params Demo.streaming st (Incoming Demo.root_get)
     = (st, Some {| reply_status := 200; reply_sent := Some (JStr "Hello World!") |}).
Proof.
  intros st. split; [reflexivity|]. split; [reflexivity|].
  apply (liveness_route_fixed_greeting Demo.flaky Demo.params Demo.streaming
           st Demo.root_get); reflexivity.
Defined.

Lemma demo_vars_reordered : reordered Demo.vars_ab Demo.vars_ba.
Proof.
  apply (reordered_obj _
           [("first", JNum 10);
            ("filter", JObj [("sort", JStr "asc"); ("tag", JStr "new")])]).
  - constructor; [split; [reflexivity | apply reordered_atom]|].
    constructor; [|constructor].
    split; [reflexivity|]. simpl.
    apply (reordered_obj _ [("tag", JStr "new"); ("sort", JStr "asc")]).
    + repeat constructor.
    + apply perm_swap.
  - apply perm_swap.
Qed.

Lemma deriveKey_deterministic_order_insensitive_witness :
  wf_json Demo.vars_ab = true /\ reordered Demo.vars_ab Demo.vars_ba
  /\ deriveKey id "{ shop { name } }" None Demo.vars_ab []
     = deriveKey id "{ shop { name } }" None Demo.vars_ba [].
Proof.
  split; [reflexivity|]. split; [exact demo_vars_reordered|].
  apply (deriveKey_deterministic_order_insensitive id "{ shop { name } }" None
           Demo.vars_ab Demo.vars_ba []).
  - reflexivity.
  - exact demo_vars_reordered.
Defined.


(** * Further properties of the module *)

Section Module_body.

Context {Schema Store : Type}.
Variable upstream : nat -> FetchRequest -> option Schema.
Variable getGraphQLParameters : HelixRequest -> GraphQLParams.
Variable processRequest :
  GraphQLParams -> HelixRequest -> Enveloped Schema -> Store ->
  ProcessRequestResult * Store.

Local Abbreviation Proc := (Process Schema Store).
Local Abbreviation step' := (step upstream getGraphQLParameters processRequest).
Local Abbreviation run' := (run upstream getGraphQLParameters processRequest).
Local Abbreviation replies' := (replies upstream getGraphQLParameters processRequest).
Local Abbreviation handler' := (handler getGraphQLParameters processRequest).
Local Abbreviation process' := (process getGraphQLParameters processRequest).
Local Abbreviation dispatch' := (dispatch getGraphQLParameters processRequest).
Local Abbreviation boot := (init (Schema:=Schema) (Store:=Store)).

(** Past the settlement of the download the heap holds its answer. *)
Lemma run_boot_settled (env0 file : Env) (store0 : Store) (before after : list Event) :
  sole_promise (run' (boot env0 file store0) (before ++ SchemaSettled 0 :: after))
    (settle (upstream 0 (schema_request (dotenv_config env0 file))) Pending).
Proof.
  set (f := schema_request (dotenv_config env0 file)).
  rewrite run_app. simpl.
  set (mid := run' (boot env0 file store0) before).
  assert (fetch_log mid = [f]) as Hmid by apply run_boot_fetch_log.
  apply (run_settled _ _ _ _ f).
  - by destruct (settle_download_bindings upstream mid 0) as (_&_&_&_&<-).
  - by destruct (upstream 0 f).
  - destruct (run_sole_promise upstream getGraphQLParameters processRequest
                (boot env0 file store0) f before eq_refl
                (or_introl (boot_sole_promise env0 file store0))) as [H | H];
      fold mid in H;
      apply (step_sole_promise upstream getGraphQLParameters processRequest
               _ (SchemaSettled 0) f) in H; try done.
    by rewrite settle_idem in H; [|by right].
Qed.

(** X1. [getSchema] keeps no memory of earlier calls: called twice, it
    returns two different promises, both pending, starts two downloads of
    the same request, and leaves the promises that were there alone. *)
Theorem getSchema_starts_a_download_per_call
    (e : Env) (heap : list (Promise Schema)) (log : list FetchRequest) :
  let '(p1, heap1, log1) := getSchema e heap log in
  let '(p2, heap2, log2) := getSchema e heap1 log1 in
  p1 <> p2
  /\ heap2 !! p1 = Some Pending /\ heap2 !! p2 = Some Pending
  /\ take (length heap) heap2 = heap
  /\ length heap2 = length heap + 2
  /\ log2 = log ++ [schema_request e; schema_request e].
Proof.
  simpl. rewrite !length_app. simpl.
  split; [lia|].
  split.
  { rewrite lookup_app_l by (rewrite length_app; simpl; lia).
    by rewrite lookup_app_r, Nat.sub_diag. }
  split.
  { rewrite lookup_app_r by (rewrite length_app; simpl; lia).
    rewrite length_app. simpl.
    by replace (length heap + 1 - (length heap + 1)) with 0 by lia. }
  split; [by rewrite <- app_assoc, take_app_length|].
  split; [lia|]. by rewrite <- app_assoc.
Qed.

(** X2. A successful schema download is kept for the life of the process:
    when the one download succeeds with [s], then from its settlement on,
    whatever events follow, every request is given [s], the promise stays
    fulfilled and no further download is started. *)
Theorem schema_success_is_permanent
    (env0 file : Env) (store0 : Store) (before after : list Event) (s : Schema) :
  upstream 0 (schema_request (dotenv_config env0 file)) = Some s ->
  let st := run' (boot env0 file store0) (before ++ SchemaSettled 0 :: after) in
  schema (getEnveloped st) = Some s
  /\ promises st = [Fulfilled s]
  /\ fetch_log st = [schema_request (dotenv_config env0 file)].
Proof.
  intros Hok st.
  pose proof (run_boot_settled env0 file store0 before after) as Hheap.
  pose proof (run_boot_plugins upstream getGraphQLParameters processRequest
                env0 file store0 (before ++ SchemaSettled 0 :: after)) as Hpl.
  fold st in Hheap, Hpl. rewrite Hok in Hheap. simpl in Hheap.
  split; [|split; [exact Hheap | apply run_boot_fetch_log]].
  simpl. by rewrite (current_schema_sole st _ _ _ Hpl Hheap).
Qed.

(** X3. The schema handle never changes once a request has been given
    one: if the process hands out [s] after a trace, it hands out [s]
    after every extension of that trace. *)
Theorem schema_handle_is_stable
    (env0 file : Env) (store0 : Store) (evs more : list Event) (s : Schema) :
  schema (getEnveloped (run' (boot env0 file store0) evs)) = Some s ->
  schema (getEnveloped (run' (boot env0 file store0) (evs ++ more))) = Some s.
Proof.
  set (f := schema_request (dotenv_config env0 file)).
  set (st := run' (boot env0 file store0) evs).
  pose proof (run_boot_plugins upstream getGraphQLParameters processRequest
                env0 file store0 evs) as Hpl.
  pose proof (run_boot_plugins upstream getGraphQLParameters processRequest
                env0 file store0 (evs ++ more)) as Hpl'.
  assert (fetch_log st = [f]) as Hlog by apply run_boot_fetch_log.
  fold st in Hpl. simpl. intros Hs.
  assert (sole_promise st (Fulfilled s)) as Hheap.
  { destruct (run_sole_promise upstream getGraphQLParameters processRequest
                (boot env0 file store0) f evs eq_refl
                (or_introl (boot_sole_promise env0 file store0))) as [H | H];
      fold st in H; rewrite (current_schema_sole st _ _ _ Hpl H) in Hs; [done|].
    destruct (upstream 0 f); simpl in *; [by simplify_eq | done]. }
  rewrite run_app. fold st.
  apply (run_settled upstream getGraphQLParameters processRequest st f _ more Hlog)
    in Hheap; [|done].
  rewrite run_app in Hpl'. fold st in Hpl'.
  by rewrite (current_schema_sole _ _ _ _ Hpl' Hheap).
Qed.

(** X4. Requests do not wait for the schema: as long as only requests
    have arrived, helix is called without a schema, with the plugin list
    of the module body. *)
Theorem requests_before_settlement_get_no_schema
    (env0 file : Env) (store0 : Store) (reqs : list Request) (req : Request) :
  let st := run' (boot env0 file store0) (Incoming <$> reqs) in
  let request := {| body := req_body req; headers := req_headers req;
                    method := req_method req; query := req_query req |} in
  process' st req
  = processRequest (getGraphQLParameters request) request
      {| schema := None; wrapped := plugins (boot env0 file store0) |} (store st).
Proof.
  intros st request. unfold process. unfold getEnveloped.
  pose proof (run_boot_plugins upstream getGraphQLParameters processRequest
                env0 file store0 (Incoming <$> reqs)) as Hpl.
  fold st in Hpl.
  assert (sole_promise st Pending) as Hheap.
  { unfold sole_promise, st. by rewrite run_requests_pending. }
  rewrite (current_schema_sole st _ _ _ Hpl Hheap).
  by rewrite Hpl.
Qed.

Lemma respond_sends (r : ProcessRequestResult) (res : Reply) :
  is_Some (reply_sent (respond r res)).
Proof. by destruct r. Qed.

Lemma dispatch_sends (st st' : Proc) (req : Request) (res : Reply) :
  dispatch' st req = Some (st', res) -> is_Some (reply_sent res).
Proof.
  unfold dispatch. destruct (_ && _); [by intros; simplify_eq|].
  destruct (_ && _); [|done].
  unfold handler. destruct (process' st req) as [r s'].
  intros; simplify_eq. apply respond_sends.
Qed.

(** X5. No reply leaves the program without a body: in every trace, from
    every state and whatever helix returns, each reply had [res.send]
    called on it. *)
Theorem every_reply_has_a_body (st : Proc) (evs : list Event) :
  Forall (fun res => is_Some (reply_sent res)) (replies' st evs)
  /\ length (replies' st evs) <= length evs.
Proof.
  revert st. induction evs as [|ev evs IH]; intros st; [by split|].
  simpl. destruct (step' st ev) as [st' r] eqn:E.
  destruct (IH st') as [Hall Hlen].
  destruct r as [res|]; [|split; [done | lia]].
  split; [|simpl; lia].
  constructor; [|done].
  destruct ev as [p | req]; simpl in E; [by simplify_eq|].
  destruct (dispatch' st req) as [[st'' res']|] eqn:D; simplify_eq.
  by eapply dispatch_sends.
Qed.

(** X8. The deployment mode decides four things together and they never
    disagree: either the process is in development mode, listens on
    localhost:3000, caches in memory and logs, or it is not, listens on
    0.0.0.0:8080, caches in Redis and has no logger. *)
Theorem deployment_mode_is_coherent
    (env0 file : Env) (store0 : Store) (evs : list Event) :
  let st := run' (boot env0 file store0) evs in
  (devMode st = true
   /\ appPort (devMode st) = 3000%Z /\ appServer (devMode st) = "localhost"
   /\ the_cache st = InMemoryCache
   /\ length (plugins st) = 3 /\ last (plugins st) = Some useLogger)
  \/ (devMode st = false
      /\ appPort (devMode st) = 8080%Z /\ appServer (devMode st) = "0.0.0.0"
      /\ the_cache st = RedisCache (env st !! "REDIS_CONNECTION_STRING")
      /\ length (plugins st) = 2 /\ (useLogger ∉ plugins st)).
Proof.
  intros st.
  destruct (run_boot_bindings upstream getGraphQLParameters processRequest
              env0 file store0 evs) as (Hd & He & Hc & Hp & _).
  fold st in Hd, He, Hc, Hp. rewrite <- Hc, <- Hd, <- Hp, <- He. simpl.
  unfold build_plugins, createCache.
  destruct (read_devMode env0); [left | right]; repeat split.
  intros H%list_elem_of_In. simpl in H. by destruct H as [?|[?|[]]].
Qed.

(** X9. NODE_ENV is read before the .env file is loaded: a NODE_ENV that
    only the .env file sets to development shows in process.env but does
    not put the process in development mode, while the Redis connection
    string of the same file is used. *)
Theorem dotenv_node_env_comes_too_late
    (env0 file : Env) (store0 : Store) (evs : list Event) :
  env0 !! "NODE_ENV" = None ->
  file !! "NODE_ENV" = Some "development" ->
  env0 !! "REDIS_CONNECTION_STRING" = None ->
  let st := run' (boot env0 file store0) evs in
  env st !! "NODE_ENV" = Some "development"
  /\ devMode st = false
  /\ the_cache st = RedisCache (file !! "REDIS_CONNECTION_STRING")
  /\ (useLogger ∉ plugins st)
  /\ appPort (devMode st) = 8080%Z.
Proof.
  intros Hn Hf Hr st.
  destruct (run_boot_bindings upstream getGraphQLParameters processRequest
              env0 file store0 evs) as (Hd & He & Hc & Hp & _).
  fold st in Hd, He, Hc, Hp. rewrite <- Hc, <- Hd, <- Hp, <- He. simpl.
  unfold build_plugins, createCache, read_devMode, dotenv_config.
  rewrite !lookup_union_r by done. rewrite Hn, Hf.
  rewrite bool_decide_eq_false_2 by done.
  repeat split.
  intros H%list_elem_of_In. simpl in H. by destruct H as [?|[]].
Qed.

(** X10. The settings of the upstream are not checked: when
    SHOPIFY_STORE is set neither in the environment nor in the .env file,
    the process still starts its one download, from the host named
    undefined. *)
Theorem missing_store_is_not_detected
    (env0 file : Env) (store0 : Store) (evs : list Event) :
  env0 !! "SHOPIFY_STORE" = None -> file !! "SHOPIFY_STORE" = None ->
  let st := run' (boot env0 file store0) evs in
  fetch_log st
  = [ {| fetch_url :=
           "https://undefined/api/"
           +:+ interpolate (env st !! "STOREFRONT_API_VERSION")
           +:+ "/graphql.json";
         fetch_headers :=
           [("X-Shopify-Storefront-Access-Token",
             env st !! "STOREFRONT_API_PASSWORD")] |} ]
  /\ length (promises st) = 1.
Proof.
  intros H0 Hf st.
  destruct (run_boot_bindings upstream getGraphQLParameters processRequest
              env0 file store0 evs) as (_ & He & _ & _ & Hl).
  fold st in He, Hl. split.
  - rewrite <- He, <- Hl. simpl. unfold schema_request, dotenv_config.
    by rewrite (lookup_union_None_2 env0 file "SHOPIFY_STORE" H0 Hf).
  - destruct (run_sole_promise upstream getGraphQLParameters processRequest
                (boot env0 file store0) _ evs eq_refl
                (or_introl (boot_sole_promise env0 file store0))) as [H | H];
      fold st in H; by rewrite H.
Qed.

End Module_body.

(** ** The headers of a helix result *)

Section Headers.

Context {Schema Store : Type}.
Variable upstream : nat -> FetchRequest -> option Schema.
Variable getGraphQLParameters : HelixRequest -> GraphQLParams.
Variables engine engine' :
  GraphQLParams -> HelixRequest -> Enveloped Schema -> Store ->
  ProcessRequestResult * Store.

(** Two engines that differ at most in the headers of their results. *)
Hypothesis same_but_headers :
  forall p r e s,
    without_headers (engine p r e s).1 = without_headers (engine' p r e s).1
    /\ (engine p r e s).2 = (engine' p r e s).2.

Lemma respond_without_headers (r : ProcessRequestResult) (res : Reply) :
  respond (without_headers r) res = respond r res.
Proof. by destruct r. Qed.

Lemma handler_same_but_headers (st : Process Schema Store) (req : Request) :
  handler getGraphQLParameters engine st req
  = handler getGraphQLParameters engine' st req.
Proof.
  unfold handler, process.
  match goal with
  | |- context [engine ?p ?r ?e ?s] =>
      destruct (same_but_headers p r e s) as [Hr Hs];
      destruct (engine p r e s) as [r1 s1], (engine' p r e s) as [r2 s2]
  end.
  simpl in *. subst s2.
  by rewrite <- (respond_without_headers r1), <- (respond_without_headers r2), Hr.
Qed.

Lemma step_same_but_headers (st : Process Schema Store) (ev : Event) :
  step upstream getGraphQLParameters engine st ev
  = step upstream getGraphQLParameters engine' st ev.
Proof.
  destruct ev as [p | req]; [done|].
  simpl. unfold dispatch. by rewrite handler_same_but_headers.
Qed.

(** X11. The headers that helix computes for a response are never sent:
    two engines that differ only in those headers give, on every trace,
    the same replies and the same states. *)
Theorem helix_headers_are_dropped (st : Process Schema Store) (evs : list Event) :
  replies upstream getGraphQLParameters engine st evs
  = replies upstream getGraphQLParameters engine' st evs
  /\ run upstream getGraphQLParameters engine st evs
     = run upstream getGraphQLParameters engine' st evs.
Proof.
  revert st. induction evs as [|ev evs IH]; intros st; [done|].
  simpl. rewrite step_same_but_headers.
  destruct (step upstream getGraphQLParameters engine' st ev) as [st' r].
  simpl. destruct (IH st') as [-> ->]. by destruct r.
Qed.

End Headers.

(** ** The further properties at the concrete deployment *)

Lemma schema_success_is_permanent_witness :
  Demo.healthy 0 (schema_request (dotenv_config Demo.production Demo.dotfile))
  = Some "type Query { shop: Shop }"
  /\ let st :=
       run Demo.healthy Demo.params Demo.answering
         (init Demo.production Demo.dotfile 0%nat)
         ([Incoming Demo.graphql_post]
          ++ SchemaSettled 0 :: [Incoming Demo.graphql_post; SchemaSettled 0]) in
     schema (getEnveloped st) = Some "type Query { shop: Shop }"
     /\ promises st = [Fulfilled "type Query { shop: Shop }"]
     /\ fetch_log st = [schema_request (dotenv_config Demo.production Demo.dotfile)].
Proof.
  split; [reflexivity|].
  apply (schema_success_is_permanent Demo.healthy Demo.params Demo.answering
           Demo.production Demo.dotfile 0%nat).
  reflexivity.
Defined.

Lemma schema_handle_is_stable_witness :
  schema (getEnveloped
            (run Demo.healthy Demo.params Demo.answering
               (init Demo.production Demo.dotfile 0%nat) [SchemaSettled 0]))
  = Some "type Query { shop: Shop }"
  /\ schema (getEnveloped
               (run Demo.healthy Demo.params Demo.answering
                  (init Demo.production Demo.dotfile 0%nat)
                  ([SchemaSettled 0]
                   ++ [Incoming Demo.graphql_post; SchemaSettled 0;
                       Incoming Demo.root_get])))
     = Some "type Query { shop: Shop }".
Proof.
  split; [reflexivity|].
  apply (schema_handle_is_stable Demo.healthy Demo.params Demo.answering
           Demo.production Demo.dotfile 0%nat).
  reflexivity.
Defined.

Lemma dotenv_node_env_comes_too_late_witness :
  Demo.bare !! "NODE_ENV" = None
  /\ Demo.dev_dotfile !! "NODE_ENV" = Some "development"
  /\ Demo.bare !! "REDIS_CONNECTION_STRING" = None
  /\ let st :=
       run Demo.healthy Demo.params Demo.answering
         (init Demo.bare Demo.dev_dotfile 0%nat) [Incoming Demo.graphql_post] in
     env st !! "NODE_ENV" = Some "development"
     /\ devMode st = false
     /\ the_cache st = RedisCache (Demo.dev_dotfile !! "REDIS_CONNECTION_STRING")
     /\ (useLogger ∉ plugins st)
     /\ appPort (devMode st) = 8080%Z.
Proof.
  split; [reflexivity|]. split; [reflexivity|]. split; [reflexivity|].
  apply (dotenv_node_env_comes_too_late Demo.healthy Demo.params Demo.answering
           Demo.bare Demo.dev_dotfile 0%nat); reflexivity.
Defined.

Lemma missing_store_is_not_detected_witness :
  Demo.bare !! "SHOPIFY_STORE" = None
  /\ Demo.dev_dotfile !! "SHOPIFY_STORE" = None
  /\ let st :=
       run Demo.healthy Demo.params Demo.answering
         (init Demo.bare Demo.dev_dotfile 0%nat) [SchemaSettled 0] in
     fetch_log st
     = [ {| fetch_url :=
              "https://undefined/api/"
              +:+ interpolate (env st !! "STOREFRONT_API_VERSION")
              +:+ "/graphql.json";
            fetch_headers :=
              [("X-Shopify-Storefront-Access-Token",
                env st !! "STOREFRONT_API_PASSWORD")] |} ]
     /\ length (promises st) = 1.
Proof.
  split; [reflexivity|]. split; [reflexivity|].
  apply (missing_store_is_not_detected Demo.healthy Demo.params Demo.answering
           Demo.bare Demo.dev_dotfile 0%nat); reflexivity.
Defined.

Lemma demo_engines_same_but_headers :
  forall p r (e : Enveloped Demo.Schema) s,
    without_headers (Demo.answering p r e s).1
    = without_headers (Demo.answering_with_headers p r e s).1
    /\ (Demo.answering p r e s).2 = (Demo.answering_with_headers p r e s).2.
Proof.
  intros p r e s. unfold Demo.answering_with_headers, Demo.answering.
  by destruct (schema e).
Qed.

Lemma helix_headers_are_dropped_witness :
  (Demo.answering (mkParams None None None) (mkHelix JNull [] POST [])
     {| schema := Some "s"; wrapped := [] |} 0%nat).1
  <> (Demo.answering_with_headers (mkParams None None None)
        (mkHelix JNull [] POST [])
        {| schema := Some "s"; wrapped := [] |} 0%nat).1
  /\ (forall p r (e : Enveloped Demo.Schema) s,
        without_headers (Demo.answering p r e s).1
        = without_headers (Demo.answering_with_headers p r e s).1
        /\ (Demo.answering p r e s).2 = (Demo.answering_with_headers p r e s).2)
  /\ let st := init Demo.production Demo.dotfile 0%nat in
     let evs := [SchemaSettled 0; Incoming Demo.graphql_post] in
     replies Demo.healthy Demo.params Demo.answering st evs
     = replies Demo.healthy Demo.params Demo.answering_with_headers st evs
     /\ run Demo.healthy Demo.params Demo.answering st evs
        = run Demo.healthy Demo.params Demo.answering_with_headers st evs.
Proof.
  split; [discriminate|]. split; [exact demo_engines_same_but_headers|].
  apply (helix_headers_are_dropped Demo.healthy Demo.params
           Demo.answering Demo.answering_with_headers
           demo_engines_same_but_headers).
Defined.
